(** * DS3231 real-time-clock driver: shallow embedding and properties

    The development follows [ds3231.c] / [ds3231.h] and the transport
    interface of [hal/hal.h].

    Conventions of the embedding:
    - a [uint8_t], [int8_t] or [int16_t] is a [Z] with the conversion written
      out ([u8], [i8], [i16]); an [int] is a [Z].  All [int] arithmetic of the
      driver either stays far inside 32 bits or is truncated to [uint8_t]
      right away, where exact arithmetic and 32-bit wrap-around agree because
      256 divides 2^32;
    - the bus behind [i2c_dev_t *dev] is an explicit state threaded through a
      small state monad; the transport is a type class, as [hal.h] is an
      interface with exchangeable implementations;
    - an out-parameter [T *p] is an argument holding the previous contents of
      [*p] together with a returned new contents;
    - an automatic variable that the source leaves uninitialised and later
      reads is an explicit argument. *)

From Stdlib Require Import ZArith Lia List Bool QArith.
From stdpp Require Import gmap.
Import ListNotations.
Local Open Scope Z_scope.

(** [lia] with division and remainder by constants. *)
Ltac zlia := Z.div_mod_to_equations; lia.

(** ** Fixed-width integers *)

(** Conversion to [uint8_t]. *)
Definition u8 (x : Z) : Z := x mod 256.

(** Conversion to [int8_t] (two's complement reinterpretation). *)
Definition i8 (x : Z) : Z := (x + 128) mod 256 - 128.

(** Conversion to [int16_t]. *)
Definition i16 (x : Z) : Z := (x + 32768) mod 65536 - 32768.

Definition is_u8 (x : Z) : Prop := 0 <= x < 256.

(** ** Register map and bit masks ([ds3231.h]) *)

Definition DS3231_ADDR : Z := 0x68.

Definition DS3231_STAT_OSCILLATOR : Z := 0x80.
Definition DS3231_STAT_32KHZ : Z := 0x08.
Definition DS3231_STAT_ALARM_2 : Z := 0x02.
Definition DS3231_STAT_ALARM_1 : Z := 0x01.

Definition DS3231_CTRL_OSCILLATOR : Z := 0x80.
Definition DS3231_CTRL_TEMPCONV : Z := 0x20.
Definition DS3231_CTRL_ALARM_INTS : Z := 0x04.
Definition DS3231_CTRL_ALARM2_INT : Z := 0x02.
Definition DS3231_CTRL_ALARM1_INT : Z := 0x01.

Definition DS3231_ALARM_WDAY : Z := 0x40.
Definition DS3231_ALARM_NOTSET : Z := 0x80.

Definition DS3231_ADDR_TIME : Z := 0x00.
Definition DS3231_ADDR_ALARM1 : Z := 0x07.
Definition DS3231_ADDR_ALARM2 : Z := 0x0b.
Definition DS3231_ADDR_CONTROL : Z := 0x0e.
Definition DS3231_ADDR_STATUS : Z := 0x0f.
Definition DS3231_ADDR_AGING : Z := 0x10.
Definition DS3231_ADDR_TEMP : Z := 0x11.

Definition DS3231_12HOUR_FLAG : Z := 0x40.
Definition DS3231_12HOUR_MASK : Z := 0x1f.
Definition DS3231_PM_FLAG : Z := 0x20.
Definition DS3231_MONTH_MASK : Z := 0x1f.

(** The anonymous enum of update modes; [ds3231_set_flag] receives the mode
    as a [uint8_t]. *)
Definition DS3231_SET : Z := 0.
Definition DS3231_CLEAR : Z := 1.
Definition DS3231_REPLACE : Z := 2.

Inductive ds3231_alarm_t :=
| DS3231_ALARM_NONE
| DS3231_ALARM_1
| DS3231_ALARM_2
| DS3231_ALARM_BOTH.

Definition alarm_val (a : ds3231_alarm_t) : Z :=
  match a with
  | DS3231_ALARM_NONE => 0
  | DS3231_ALARM_1 => 1
  | DS3231_ALARM_2 => 2
  | DS3231_ALARM_BOTH => 3
  end.

Definition alarm_eqb (a b : ds3231_alarm_t) : bool := alarm_val a =? alarm_val b.

Inductive ds3231_alarm1_rate_t :=
| DS3231_ALARM1_EVERY_SECOND
| DS3231_ALARM1_MATCH_SEC
| DS3231_ALARM1_MATCH_SECMIN
| DS3231_ALARM1_MATCH_SECMINHOUR
| DS3231_ALARM1_MATCH_SECMINHOURDAY
| DS3231_ALARM1_MATCH_SECMINHOURDATE.

Definition alarm1_rate_val (r : ds3231_alarm1_rate_t) : Z :=
  match r with
  | DS3231_ALARM1_EVERY_SECOND => 0
  | DS3231_ALARM1_MATCH_SEC => 1
  | DS3231_ALARM1_MATCH_SECMIN => 2
  | DS3231_ALARM1_MATCH_SECMINHOUR => 3
  | DS3231_ALARM1_MATCH_SECMINHOURDAY => 4
  | DS3231_ALARM1_MATCH_SECMINHOURDATE => 5
  end.

Inductive ds3231_alarm2_rate_t :=
| DS3231_ALARM2_EVERY_MIN
| DS3231_ALARM2_MATCH_MIN
| DS3231_ALARM2_MATCH_MINHOUR
| DS3231_ALARM2_MATCH_MINHOURDAY
| DS3231_ALARM2_MATCH_MINHOURDATE.

Definition alarm2_rate_val (r : ds3231_alarm2_rate_t) : Z :=
  match r with
  | DS3231_ALARM2_EVERY_MIN => 0
  | DS3231_ALARM2_MATCH_MIN => 1
  | DS3231_ALARM2_MATCH_MINHOUR => 2
  | DS3231_ALARM2_MATCH_MINHOURDAY => 3
  | DS3231_ALARM2_MATCH_MINHOURDATE => 4
  end.

Inductive ds3231_sqwave_freq_t :=
| DS3231_SQWAVE_1HZ
| DS3231_SQWAVE_1024HZ
| DS3231_SQWAVE_4096HZ
| DS3231_SQWAVE_8192HZ.

Definition sqwave_val (f : ds3231_sqwave_freq_t) : Z :=
  match f with
  | DS3231_SQWAVE_1HZ => 0x00
  | DS3231_SQWAVE_1024HZ => 0x08
  | DS3231_SQWAVE_4096HZ => 0x10
  | DS3231_SQWAVE_8192HZ => 0x18
  end.

(** ** [struct tm]

    The driver stores the full four-digit year in [tm_year] and never touches
    [tm_yday]. *)
Record tm := mk_tm {
  tm_sec : Z;
  tm_min : Z;
  tm_hour : Z;
  tm_mday : Z;
  tm_mon : Z;
  tm_year : Z;
  tm_wday : Z;
  tm_yday : Z;
  tm_isdst : Z
}.

(** ** BCD helpers *)

(** [bcd2dec]: [(val >> 4) * 10 + (val & 0x0f)], returned as [uint8_t]. *)
Definition bcd2dec (val : Z) : Z :=
  u8 (Z.shiftr val 4 * 10 + Z.land val 0x0f).

(** [dec2bcd]: [((val / 10) << 4) + (val % 10)], returned as [uint8_t].  The
    argument is a [uint8_t], hence non-negative, so C's truncating division
    and remainder are [Z.div] and [Z.modulo]. *)
Definition dec2bcd (val : Z) : Z :=
  u8 (Z.shiftl (val / 10) 4 + val mod 10).

(** [data[i]] for an array held as a list. *)
Definition idx (data : list Z) (i : nat) : Z := nth i data 0.

(** ** State monad over the bus *)

Definition io (bus A : Type) : Type := bus -> A * bus.

Definition io_ret {bus A : Type} (a : A) : io bus A := fun b => (a, b).

Definition io_bind {bus A B : Type} (m : io bus A) (k : A -> io bus B) : io bus B :=
  fun b => let (a, b') := m b in k a b'.

Notation "x <- m ;; k" := (io_bind m (fun x => k))
  (at level 100, m at next level, right associativity).

(** ** The transport ([hal/hal.h])

    [hal_i2c_write_reg dev reg out_data out_size] sends the bytes [out_data]
    to the registers starting at [reg]; the result is the returned [bool].
    [hal_i2c_read_reg dev reg in_data in_size] yields [Some bytes] when it
    returns [true] after filling [in_data] with [bytes], and [None] when it
    returns [false]. *)
Class Transport (bus : Type) := {
  hal_i2c_write_reg : Z -> list Z -> io bus bool;
  hal_i2c_read_reg : Z -> nat -> io bus (option (list Z))
}.

Definition succeeded {A : Type} (r : option A) : bool :=
  match r with Some _ => true | None => false end.

(** ** The driver ([ds3231.c]) *)

(** The "time/date data" block of [ds3231_set_time]: the seven bytes
    [data[0..6]]. *)
Definition time_regs (time : tm) : list Z :=
  [ dec2bcd (u8 (tm_sec time));
    dec2bcd (u8 (tm_min time));
    dec2bcd (u8 (tm_hour time));
    dec2bcd (u8 (tm_wday time + 1));
    dec2bcd (u8 (tm_mday time));
    dec2bcd (u8 (tm_mon time + 1));
    dec2bcd (u8 (tm_year time - 2000)) ].

(** The "convert to unix time structure" block of [ds3231_get_time]: the
    assignments to [*time] from [data[0..6]]. *)
Definition regs_time (data : list Z) (time : tm) : tm :=
  {| tm_sec := bcd2dec (idx data 0);
     tm_min := bcd2dec (idx data 1);
     tm_hour :=
       if negb (Z.land (idx data 2) DS3231_12HOUR_FLAG =? 0) then
         let h := bcd2dec (Z.land (idx data 2) DS3231_12HOUR_MASK) - 1 in
         if negb (Z.land (idx data 2) DS3231_PM_FLAG =? 0) then h + 12 else h
       else bcd2dec (idx data 2);
     tm_mday := bcd2dec (idx data 4);
     tm_mon := bcd2dec (Z.land (idx data 5) DS3231_MONTH_MASK) - 1;
     tm_year := bcd2dec (idx data 6) + 2000;
     tm_wday := bcd2dec (idx data 3) - 1;
     tm_yday := tm_yday time;
     tm_isdst := 0 |}.

(** The four bytes of the "alarm 1 data" block of [ds3231_set_alarm]. *)
Definition alarm1_regs (time1 : tm) (option1 : ds3231_alarm1_rate_t) : list Z :=
  let o := alarm1_rate_val option1 in
  [ if alarm1_rate_val DS3231_ALARM1_MATCH_SEC <=? o
    then dec2bcd (u8 (tm_sec time1)) else DS3231_ALARM_NOTSET;
    if alarm1_rate_val DS3231_ALARM1_MATCH_SECMIN <=? o
    then dec2bcd (u8 (tm_min time1)) else DS3231_ALARM_NOTSET;
    if alarm1_rate_val DS3231_ALARM1_MATCH_SECMINHOUR <=? o
    then dec2bcd (u8 (tm_hour time1)) else DS3231_ALARM_NOTSET;
    if o =? alarm1_rate_val DS3231_ALARM1_MATCH_SECMINHOURDAY
    then Z.land (dec2bcd (u8 (tm_wday time1 + 1))) DS3231_ALARM_WDAY
    else if o =? alarm1_rate_val DS3231_ALARM1_MATCH_SECMINHOURDATE
         then dec2bcd (u8 (tm_mday time1)) else DS3231_ALARM_NOTSET ].

(** The three bytes of the "alarm 2 data" block of [ds3231_set_alarm]. *)
Definition alarm2_regs (time2 : tm) (option2 : ds3231_alarm2_rate_t) : list Z :=
  let o := alarm2_rate_val option2 in
  [ if alarm2_rate_val DS3231_ALARM2_MATCH_MIN <=? o
    then dec2bcd (u8 (tm_min time2)) else DS3231_ALARM_NOTSET;
    if alarm2_rate_val DS3231_ALARM2_MATCH_MINHOUR <=? o
    then dec2bcd (u8 (tm_hour time2)) else DS3231_ALARM_NOTSET;
    if o =? alarm2_rate_val DS3231_ALARM2_MATCH_MINHOURDAY
    then Z.land (dec2bcd (u8 (tm_wday time2 + 1))) DS3231_ALARM_WDAY
    else if o =? alarm2_rate_val DS3231_ALARM2_MATCH_MINHOURDATE
         then dec2bcd (u8 (tm_mday time2)) else DS3231_ALARM_NOTSET ].

(** The contents [data[0..i-1]] that [ds3231_set_alarm] hands to the
    transport; the list's length is the final [i].  [time1] and [time2] are
    taken to be valid pointers. *)
Definition alarm_regs (alarms : ds3231_alarm_t)
    (time1 : tm) (option1 : ds3231_alarm1_rate_t)
    (time2 : tm) (option2 : ds3231_alarm2_rate_t) : list Z :=
  let data := [] in
  let data :=
    if negb (alarm_eqb alarms DS3231_ALARM_2)
    then data ++ alarm1_regs time1 option1 else data in
  let data :=
    if negb (alarm_eqb alarms DS3231_ALARM_1)
    then data ++ alarm2_regs time2 option2 else data in
  data.

(** The base address [ds3231_set_alarm] writes at. *)
Definition alarm_base (alarms : ds3231_alarm_t) : Z :=
  if alarm_eqb alarms DS3231_ALARM_2 then DS3231_ADDR_ALARM2 else DS3231_ADDR_ALARM1.

(** The "clear the flag" block of [ds3231_set_flag]: the new value of the
    local [data]. *)
Definition flag_update (data bits mode : Z) : Z :=
  if mode =? DS3231_REPLACE then bits
  else if mode =? DS3231_SET then u8 (Z.lor data bits)
  else u8 (Z.land data (Z.lnot bits)).

(** [(int16_t)(int8_t)data[0] << 2 | data[1] >> 6], stored in an [int16_t]. *)
Definition raw_temp (data : list Z) : Z :=
  i16 (Z.lor (Z.shiftl (i16 (i8 (idx data 0))) 2) (Z.shiftr (idx data 1) 6)).

Section Driver.

Context {bus : Type} {transport : Transport bus}.

Definition ds3231_set_time (time : tm) : io bus bool :=
  hal_i2c_write_reg DS3231_ADDR_TIME (time_regs time).

(** [data0] is what the automatic array [data[7]] holds when the read has
    failed; it is indeterminate, the array being uninitialised.  The result of
    the read is not checked, so the conversion then works on it. *)
Definition ds3231_get_time (time : tm) (data0 : list Z) : io bus (bool * tm) :=
  r <- hal_i2c_read_reg DS3231_ADDR_TIME 7 ;;
  let data := match r with Some d => d | None => data0 end in
  io_ret (true, regs_time data time).

Definition ds3231_set_alarm (alarms : ds3231_alarm_t)
    (time1 : tm) (option1 : ds3231_alarm1_rate_t)
    (time2 : tm) (option2 : ds3231_alarm2_rate_t) : io bus bool :=
  hal_i2c_write_reg (alarm_base alarms) (alarm_regs alarms time1 option1 time2 option2).

Definition ds3231_get_flag (addr mask : Z) (flag : Z) : io bus (bool * Z) :=
  r <- hal_i2c_read_reg addr 1 ;;
  match r with
  | None => io_ret (false, flag)
  | Some d => io_ret (true, Z.land (idx d 0) mask)
  end.

(** The final transport call of the source is [hal_i2c_read_reg], which
    overwrites the local [data] with the register again; its result is
    returned. *)
Definition ds3231_set_flag (addr bits mode : Z) : io bus bool :=
  r <- hal_i2c_read_reg addr 1 ;;
  match r with
  | None => io_ret false
  | Some d =>
      let data := flag_update (idx d 0) bits mode in
      r' <- hal_i2c_read_reg addr 1 ;;
      io_ret (succeeded r')
  end.

Definition ds3231_get_oscillator_stop_flag (flag : bool) : io bus (bool * bool) :=
  let f := 0 in
  rf <- ds3231_get_flag DS3231_ADDR_STATUS DS3231_STAT_OSCILLATOR f ;;
  let f := snd rf in
  io_ret (true, negb (f =? 0)).

Definition ds3231_clear_oscillator_stop_flag : io bus bool :=
  ds3231_set_flag DS3231_ADDR_STATUS DS3231_STAT_OSCILLATOR DS3231_CLEAR.


Definition ds3231_clear_alarm_flags (alarms : ds3231_alarm_t) : io bus bool :=
  ds3231_set_flag DS3231_ADDR_STATUS (alarm_val alarms) DS3231_CLEAR.

Definition ds3231_enable_alarm_ints (alarms : ds3231_alarm_t) : io bus bool :=
  ds3231_set_flag DS3231_ADDR_CONTROL
    (u8 (Z.lor DS3231_CTRL_ALARM_INTS (alarm_val alarms))) DS3231_SET.

Definition ds3231_disable_alarm_ints (alarms : ds3231_alarm_t) : io bus bool :=
  ds3231_set_flag DS3231_ADDR_CONTROL (alarm_val alarms) DS3231_CLEAR.

Definition ds3231_enable_32khz : io bus bool :=
  ds3231_set_flag DS3231_ADDR_STATUS DS3231_STAT_32KHZ DS3231_SET.

Definition ds3231_disable_32khz : io bus bool :=
  ds3231_set_flag DS3231_ADDR_STATUS DS3231_STAT_32KHZ DS3231_CLEAR.

Definition ds3231_enable_squarewave : io bus bool :=
  ds3231_set_flag DS3231_ADDR_CONTROL DS3231_CTRL_ALARM_INTS DS3231_CLEAR.

Definition ds3231_disable_squarewave : io bus bool :=
  ds3231_set_flag DS3231_ADDR_CONTROL DS3231_CTRL_ALARM_INTS DS3231_SET.

Definition ds3231_set_squarewave_freq (freq : ds3231_sqwave_freq_t) : io bus bool :=
  let flag := 0 in
  rf <- ds3231_get_flag DS3231_ADDR_CONTROL 0xff flag ;;
  let flag := snd rf in
  let flag := u8 (Z.land flag (Z.lnot (sqwave_val DS3231_SQWAVE_8192HZ))) in
  let flag := u8 (Z.lor flag (sqwave_val freq)) in
  _ <- ds3231_set_flag DS3231_ADDR_CONTROL flag DS3231_REPLACE ;;
  io_ret true.

Definition ds3231_get_raw_temp (temp : Z) : io bus (bool * Z) :=
  r <- hal_i2c_read_reg DS3231_ADDR_TEMP 2 ;;
  match r with
  | Some data => io_ret (true, raw_temp data)
  | None => io_ret (false, temp)
  end.

(** [t_int] is the indeterminate initial value of the local of that name; it
    is read only when [ds3231_get_raw_temp] has overwritten it. *)
Definition ds3231_get_temp_integer (temp : Z) (t_int : Z) : io bus (bool * Z) :=
  rt <- ds3231_get_raw_temp t_int ;;
  let (res, t_int) := (rt : bool * Z) in
  if res then io_ret (res, i8 (Z.shiftr t_int 2)) else io_ret (res, temp).

(** [t_int * 0.25]: a 16-bit integer times a power of two is exact in
    [double] and in [float], so the stored value is this rational. *)
Definition ds3231_get_temp_float (temp : Q) (t_int : Z) : io bus (bool * Q) :=
  rt <- ds3231_get_raw_temp t_int ;;
  let (res, t_int) := (rt : bool * Z) in
  if res then io_ret (res, (inject_Z t_int * (1 # 4))%Q) else io_ret (res, temp).

End Driver.

(** ** A register-file model of the chip behind the transport

    The chip holds one byte per register address.  A burst write stores
    consecutive bytes from the start address, a burst read returns them.  The
    [script] lists the outcomes of the coming transport calls ([true]: the
    call succeeds; an exhausted script means success); a failed call leaves
    the registers alone.  Every call is recorded in the [trace]. *)

Inductive event :=
| EvRead (reg : Z) (n : nat) (ok : bool)
| EvWrite (reg : Z) (data : list Z) (ok : bool).

Record chip := mk_chip {
  regs : gmap Z Z;
  script : list bool;
  trace : list event
}.

Definition reg_get (rs : gmap Z Z) (a : Z) : Z := u8 (default 0 (rs !! a)).

Fixpoint load (rs : gmap Z Z) (a : Z) (n : nat) : list Z :=
  match n with
  | O => []
  | S n' => reg_get rs a :: load rs (a + 1) n'
  end.

Fixpoint store (rs : gmap Z Z) (a : Z) (data : list Z) : gmap Z Z :=
  match data with
  | [] => rs
  | b :: data' => store (<[a := u8 b]> rs) (a + 1) data'
  end.

Definition next_ok (c : chip) : bool :=
  match script c with
  | [] => true
  | ok :: _ => ok
  end.

Definition chip_write (reg : Z) (data : list Z) : io chip bool :=
  fun c =>
    let ok := next_ok c in
    (ok, {| regs := if ok then store (regs c) reg data else regs c;
            script := tl (script c);
            trace := trace c ++ [EvWrite reg data ok] |}).

Definition chip_read (reg : Z) (n : nat) : io chip (option (list Z)) :=
  fun c =>
    let ok := next_ok c in
    (if ok then Some (load (regs c) reg n) else None,
     {| regs := regs c;
        script := tl (script c);
        trace := trace c ++ [EvRead reg n ok] |}).

#[export] Instance chip_transport : Transport chip := {
  hal_i2c_write_reg := chip_write;
  hal_i2c_read_reg := chip_read
}.

(** A chip with the given register contents on which every call succeeds. *)
Definition healthy (rs : gmap Z Z) : chip :=
  {| regs := rs; script := []; trace := [] |}.

(** A chip whose next transport call fails. *)
Definition failing (rs : gmap Z Z) : chip :=
  {| regs := rs; script := [false]; trace := [] |}.

Definition is_write (e : event) : bool :=
  match e with EvWrite _ _ _ => true | EvRead _ _ _ => false end.

(** ** The flag primitive as the specification words it

    "Read one byte, compute [data OR mask] (SET), [data AND (NOT mask)]
    (CLEAR), or [mask] verbatim (REPLACE), write one byte back to the same
    address."  Kept apart from [ds3231_set_flag] to compare the two. *)
Definition spec_set_flag {bus : Type} {transport : Transport bus}
    (addr bits mode : Z) : io bus bool :=
  r <- hal_i2c_read_reg addr 1 ;;
  match r with
  | None => io_ret false
  | Some d => hal_i2c_write_reg addr [flag_update (idx d 0) bits mode]
  end.

(** ** Valid calendar times *)

Definition is_leap (year : Z) : bool :=
  ((year mod 4 =? 0) && negb (year mod 100 =? 0)) || (year mod 400 =? 0).

(** Days of the month [mon] (0 = January) of [year]. *)
Definition days_in_month (year mon : Z) : Z :=
  if mon =? 1 then (if is_leap year then 29 else 28)
  else if (mon =? 3) || (mon =? 5) || (mon =? 8) || (mon =? 10) then 30
  else 31.

Record valid_tm (t : tm) : Prop := {
  valid_year : 2000 <= tm_year t <= 2099;
  valid_mon : 0 <= tm_mon t <= 11;
  valid_mday : 1 <= tm_mday t <= days_in_month (tm_year t) (tm_mon t);
  valid_hour : 0 <= tm_hour t <= 23;
  valid_min : 0 <= tm_min t <= 59;
  valid_sec : 0 <= tm_sec t <= 59;
  valid_wday : 0 <= tm_wday t <= 6
}.

(** The calendar fields the chip stores; [tm_yday] and [tm_isdst] are not
    among them. *)
Definition same_calendar (a b : tm) : Prop :=
  tm_sec a = tm_sec b /\ tm_min a = tm_min b /\ tm_hour a = tm_hour b /\
  tm_mday a = tm_mday b /\ tm_mon a = tm_mon b /\ tm_year a = tm_year b /\
  tm_wday a = tm_wday b.

Definition with_isdst (t : tm) (d : Z) : tm :=
  {| tm_sec := tm_sec t; tm_min := tm_min t; tm_hour := tm_hour t;
     tm_mday := tm_mday t; tm_mon := tm_mon t; tm_year := tm_year t;
     tm_wday := tm_wday t; tm_yday := tm_yday t; tm_isdst := d |}.

(** ** Well-formed register bytes *)

(** A byte whose two nibbles are decimal digits. *)
Definition is_bcd (b : Z) : Prop := 0 <= b / 16 <= 9 /\ 0 <= b mod 16 <= 9.

(** Bit 7 of each alarm register: the chip's "ignore this field" mask bits
    (A1M1..A1M4, A2M2..A2M4), the bit that [DS3231_ALARM_NOTSET] sets. *)
Definition alarm_mask_bits (data : list Z) : list bool :=
  map (fun b => Z.testbit b 7) data.

(** The fields an alarm compares, within their calendar ranges. *)
Record alarm_fields_ok (t : tm) : Prop := {
  alarm_sec : 0 <= tm_sec t <= 59;
  alarm_min : 0 <= tm_min t <= 59;
  alarm_hour : 0 <= tm_hour t <= 23;
  alarm_mday : 1 <= tm_mday t <= 31;
  alarm_wday : 0 <= tm_wday t <= 6
}.

(** ** The nRF5 transport ([hal/hal_nrf5.c])

    The nRF5 SDK is outside the repository: its TWI driver calls, its success
    code and its [APP_ERROR_CHECK] macro are the members of the class [Sdk].
    The state [twi] stands for the TWI peripheral behind the static instance
    [m_twi].  [nrf_drv_twi_tx address bytes no_stop] and
    [nrf_drv_twi_rx address buffer] return the SDK's error code, the latter
    with the new contents of the buffer.  [APP_ERROR_CHECK] is [None] when the
    error handler does not return. *)

Record i2c_dev_t := mk_dev {
  port : Z;
  scl_io_num : Z;
  sda_io_num : Z;
  addr : Z
}.

Module Nrf5.

Class Sdk (twi : Type) := {
  NRF_SUCCESS : Z;
  nrf_drv_twi_tx : Z -> list Z -> bool -> twi -> Z * twi;
  nrf_drv_twi_rx : Z -> list Z -> twi -> (Z * list Z) * twi;
  APP_ERROR_CHECK : Z -> twi -> option twi
}.

Section Hal.

Context {twi : Type} {sdk : Sdk twi}.

(** [data] is the variable-length array [data[out_size + 1]]: the register
    address followed by a copy of [out_data]. *)
Definition hal_i2c_write_reg (dev : i2c_dev_t) (reg : Z) (out_data : list Z)
    (s : twi) : option (bool * twi) :=
  let data := reg :: out_data in
  let (err_code, s1) := nrf_drv_twi_tx (addr dev) data false s in
  match APP_ERROR_CHECK err_code s1 with
  | None => None
  | Some s2 => Some (if err_code =? NRF_SUCCESS then false else true, s2)
  end.

(** [in_data] is the caller's buffer of [in_size] bytes before the call; the
    result carries its contents after the call. *)
Definition hal_i2c_read_reg (dev : i2c_dev_t) (reg : Z) (in_data : list Z)
    (s : twi) : option ((bool * list Z) * twi) :=
  let (err_code, s1) := nrf_drv_twi_tx (addr dev) [reg] true s in
  let '(err_code, in_data, s2) :=
    if err_code =? NRF_SUCCESS
    then let '((e, d), s2) := nrf_drv_twi_rx (addr dev) in_data s1 in (e, d, s2)
    else (err_code, in_data, s1) in
  match APP_ERROR_CHECK err_code s2 with
  | None => None
  | Some s3 => Some ((true, in_data), s3)
  end.

Definition hal_i2c_free (dev : i2c_dev_t) : bool := true.

End Hal.

(** A scripted TWI peripheral: the error codes of the coming driver calls
    (0 when exhausted), the bytes a receive delivers, and the frames sent. *)
Record sim_twi := mk_sim_twi {
  codes : list Z;
  rx_bytes : list Z;
  frames : list (Z * list Z)
}.

Definition next_code (s : sim_twi) : Z :=
  match codes s with
  | [] => 0
  | e :: _ => e
  end.

(** An SDK over the scripted peripheral whose error handler returns. *)
#[global] Instance sim_sdk : Sdk sim_twi := {
  NRF_SUCCESS := 0;
  nrf_drv_twi_tx := fun a data _ s =>
    (next_code s,
     {| codes := tl (codes s); rx_bytes := rx_bytes s;
        frames := frames s ++ [(a, data)] |});
  nrf_drv_twi_rx := fun a buf s =>
    ((next_code s, if next_code s =? 0 then firstn (length buf) (rx_bytes s) else buf),
     {| codes := tl (codes s); rx_bytes := rx_bytes s; frames := frames s |});
  APP_ERROR_CHECK := fun _ s => Some s
}.

End Nrf5.

(** ** Sample inputs *)

(** Thursday 29 February 2024, 23:59:58. *)
Definition leap_day : tm :=
  {| tm_sec := 58; tm_min := 59; tm_hour := 23; tm_mday := 29; tm_mon := 1;
     tm_year := 2024; tm_wday := 4; tm_yday := 59; tm_isdst := 1 |}.

(** A chip whose temperature register pair holds [(hi, lo)]. *)
Definition temp_chip (hi lo : Z) : chip :=
  healthy (<[DS3231_ADDR_TEMP := hi]> (<[DS3231_ADDR_TEMP + 1 := lo]> empty)).

(** A calendar time with a second count of 75 and the year 1999. *)
Definition bad_time : tm :=
  {| tm_sec := 75; tm_min := 0; tm_hour := 0; tm_mday := 1; tm_mon := 0;
     tm_year := 1999; tm_wday := 0; tm_yday := 0; tm_isdst := 0 |}.

(** A working chip whose status register reports a stopped oscillator and an
    enabled 32 kHz output. *)
Definition stopped_chip : chip :=
  healthy (<[DS3231_ADDR_STATUS := 0x88]> empty).

(** A working chip whose control register has only the interrupt-enable bit
    set. *)
Definition ints_chip : chip :=
  healthy (<[DS3231_ADDR_CONTROL := 0x04]> empty).

(** A chip with empty registers on which the next [n] transport calls fail. *)
Definition dead_chip (n : nat) : chip :=
  {| regs := empty; script := repeat false n; trace := [] |}.


(** A register image in 24-hour mode with the century bit set in the month
    byte: Thursday 29 February 2024, 23:59:58. *)
Definition century_image : list Z := [0x58; 0x59; 0x23; 0x05; 0x29; 0x82; 0x24].

(** The chip's device descriptor as [ds3231_init] fills it. *)
Definition rtc_dev : i2c_dev_t :=
  {| port := 0; scl_io_num := 27; sda_io_num := 26; addr := DS3231_ADDR |}.


(** A TWI peripheral whose transfers succeed. *)
Definition good_twi : Nrf5.sim_twi :=
  {| Nrf5.codes := []; Nrf5.rx_bytes := [0x11; 0x22]; Nrf5.frames := [] |}.

(** * Properties *)

(** ** Fixed-width integers *)

Lemma u8_range x : is_u8 (u8 x).
Proof. unfold is_u8, u8. zlia. Qed.

Lemma u8_id x : is_u8 x -> u8 x = x.
Proof. unfold is_u8, u8. intros. apply Z.mod_small. lia. Qed.

Lemma u8_u8 x : u8 (u8 x) = u8 x.
Proof. apply u8_id, u8_range. Qed.

Lemma i8_id x : -128 <= x < 128 -> i8 x = x.
Proof. unfold i8. intros. rewrite Z.mod_small; lia. Qed.

Lemma i8_range x : -128 <= i8 x < 128.
Proof. unfold i8. zlia. Qed.

Lemma i16_id x : -32768 <= x < 32768 -> i16 x = x.
Proof. unfold i16. intros. rewrite Z.mod_small; lia. Qed.

(** A value shifted left by [n] bits and a value below [2^n] share no bit:
    their sum and their bitwise or coincide. *)
Lemma shiftl_add_lor a r n :
  0 <= n -> 0 <= r < 2 ^ n -> Z.shiftl a n + r = Z.lor (Z.shiftl a n) r.
Proof.
  intros Hn Hr. apply Z.add_nocarry_lor.
  apply Z.bits_inj'. intros k Hk. rewrite Z.land_spec, Z.bits_0.
  destruct (Z.ltb_spec k n).
  - rewrite Z.shiftl_spec_low by lia. reflexivity.
  - assert (Hbit : Z.testbit r k = false); [| rewrite Hbit; apply andb_false_r].
    apply Z.testbit_false; [lia |].
    rewrite Z.div_small; [reflexivity |].
    split; [lia |]. apply Z.lt_le_trans with (2 ^ n); [lia |].
    apply Z.pow_le_mono_r; lia.
Qed.

(** ** BCD *)

Lemma shiftl4 x : Z.shiftl x 4 = 16 * x.
Proof. rewrite Z.shiftl_mul_pow2 by lia. change (2 ^ 4) with 16. lia. Qed.

Lemma shiftr4 x : Z.shiftr x 4 = x / 16.
Proof. rewrite Z.shiftr_div_pow2 by lia. reflexivity. Qed.

Lemma land15 x : Z.land x 0x0f = x mod 16.
Proof. change 0x0f with (Z.ones 4). rewrite Z.land_ones by lia. reflexivity. Qed.

(** On two decimal digits [dec2bcd] does not wrap: high nibble tens, low
    nibble units. *)
Lemma dec2bcd_digits n : 0 <= n <= 99 -> dec2bcd n = 16 * (n / 10) + n mod 10.
Proof.
  intros Hn. unfold dec2bcd. rewrite shiftl4. apply u8_id. unfold is_u8. zlia.
Qed.

Lemma dec2bcd_range n : 0 <= n <= 99 -> 0 <= dec2bcd n <= 0x99.
Proof. intros Hn. rewrite dec2bcd_digits by lia. zlia. Qed.

Lemma bcd2dec_byte b : is_u8 b -> bcd2dec b = Z.shiftr b 4 * 10 + Z.land b 0x0f.
Proof.
  intros Hb. unfold bcd2dec. apply u8_id.
  rewrite shiftr4, land15. unfold is_u8 in *. zlia.
Qed.

Lemma bcd2dec_dec2bcd n : 0 <= n <= 99 -> bcd2dec (dec2bcd n) = n.
Proof.
  intros Hn. rewrite bcd2dec_byte by (pose proof (dec2bcd_range n Hn); unfold is_u8; lia).
  rewrite shiftr4, land15, dec2bcd_digits by lia. zlia.
Qed.

(** The sum in [dec2bcd] carries nothing, so it is the bitwise or that the
    specification writes. *)
Lemma dec2bcd_lor n :
  0 <= n <= 99 -> dec2bcd n = Z.lor (Z.shiftl (n / 10) 4) (n mod 10).
Proof.
  intros Hn. rewrite dec2bcd_digits by lia.
  rewrite <- shiftl4. apply shiftl_add_lor; [lia |].
  change (2 ^ 4) with 16. zlia.
Qed.

(** C8: for every n in 0..99, decoding the BCD encoding of n gives n back,
    where the encoder is ((n / 10) << 4) | (n % 10) and the decoder is
    (b >> 4) * 10 + (b & 0xF) on every byte b. *)
Theorem bcd_roundtrip (n : Z) :
  0 <= n <= 99 ->
  bcd2dec (dec2bcd n) = n /\
  dec2bcd n = Z.lor (Z.shiftl (n / 10) 4) (n mod 10) /\
  (forall b, is_u8 b -> bcd2dec b = Z.shiftr b 4 * 10 + Z.land b 0xF).
Proof.
  intros Hn. split; [| split].
  - apply bcd2dec_dec2bcd, Hn.
  - apply dec2bcd_lor, Hn.
  - intros b Hb. apply bcd2dec_byte, Hb.
Qed.

Lemma bcd_roundtrip_witness :
  bcd2dec (dec2bcd 59) = 59 /\
  dec2bcd 59 = Z.lor (Z.shiftl (59 / 10) 4) (59 mod 10) /\
  (forall b, is_u8 b -> bcd2dec b = Z.shiftr b 4 * 10 + Z.land b 0xF).
Proof. apply (bcd_roundtrip 59). lia. Defined.

(** ** The register file *)

Lemma reg_get_insert_eq rs a v : reg_get (<[a := v]> rs) a = u8 v.
Proof. unfold reg_get. rewrite lookup_insert_eq. reflexivity. Qed.

Lemma reg_get_insert_ne rs a b v : a <> b -> reg_get (<[a := v]> rs) b = reg_get rs b.
Proof. intros Hne. unfold reg_get. rewrite lookup_insert_ne by exact Hne. reflexivity. Qed.

(** A burst write leaves the registers below its start address alone. *)
Lemma reg_get_store_below data : forall rs a b,
  b < a -> reg_get (store rs a data) b = reg_get rs b.
Proof.
  induction data as [| x data IH]; intros rs a b Hlt; simpl.
  - reflexivity.
  - rewrite IH by lia. apply reg_get_insert_ne. lia.
Qed.

(** Reading back a burst that was just written returns its bytes. *)
Lemma load_store data : forall rs a,
  load (store rs a data) a (length data) = map u8 data.
Proof.
  induction data as [| x data IH]; intros rs a; simpl.
  - reflexivity.
  - rewrite IH, reg_get_store_below by lia.
    rewrite reg_get_insert_eq, u8_u8. reflexivity.
Qed.

Lemma load_length rs : forall n a, length (load rs a n) = n.
Proof. induction n as [| n IH]; intros a; simpl; [| rewrite IH]; reflexivity. Qed.

Lemma load_bytes rs : forall n a, Forall is_u8 (load rs a n).
Proof.
  induction n as [| n IH]; intros a; simpl; constructor.
  - apply u8_range.
  - apply IH.
Qed.

(** ** The chip as a transport *)

Lemma chip_write_ok reg data c :
  script c = [] ->
  hal_i2c_write_reg reg data c =
  (true, {| regs := store (regs c) reg data; script := [];
            trace := trace c ++ [EvWrite reg data true] |}).
Proof.
  intros Hs. cbn [hal_i2c_write_reg chip_transport].
  unfold chip_write, next_ok. rewrite Hs. reflexivity.
Qed.

Lemma chip_read_ok reg n c :
  script c = [] ->
  hal_i2c_read_reg reg n c =
  (Some (load (regs c) reg n),
   {| regs := regs c; script := []; trace := trace c ++ [EvRead reg n true] |}).
Proof.
  intros Hs. cbn [hal_i2c_read_reg chip_transport].
  unfold chip_read, next_ok. rewrite Hs. reflexivity.
Qed.

Lemma chip_read_fail reg n c s :
  script c = false :: s ->
  hal_i2c_read_reg reg n c =
  (None, {| regs := regs c; script := s; trace := trace c ++ [EvRead reg n false] |}).
Proof.
  intros Hs. cbn [hal_i2c_read_reg chip_transport].
  unfold chip_read, next_ok. rewrite Hs. reflexivity.
Qed.

(** No read changes a register, whatever its outcome. *)
Lemma chip_read_regs reg n c : regs (snd (hal_i2c_read_reg reg n c)) = regs c.
Proof. reflexivity. Qed.

(** ** Time codec *)

Lemma land_0x40_small x : 0 <= x < 64 -> Z.land x DS3231_12HOUR_FLAG = 0.
Proof.
  intros Hx. apply Z.bits_inj'. intros k Hk.
  rewrite Z.land_spec, Z.bits_0.
  change DS3231_12HOUR_FLAG with (2 ^ 6). rewrite Z.pow2_bits_eqb by lia.
  destruct (Z.eqb_spec 6 k) as [<- | Hne]; [| apply andb_false_r].
  assert (Hbit : Z.testbit x 6 = false).
  { apply Z.testbit_false; [lia |].
    rewrite Z.div_small by (change (2 ^ 6) with 64; lia). reflexivity. }
  rewrite Hbit. reflexivity.
Qed.

Lemma land_0x1f_small x : 0 <= x < 32 -> Z.land x 0x1f = x.
Proof.
  intros Hx. change 0x1f with (Z.ones 5). rewrite Z.land_ones by lia.
  apply Z.mod_small. change (2 ^ 5) with 32. lia.
Qed.

Lemma days_in_month_le year mon : days_in_month year mon <= 31.
Proof.
  unfold days_in_month.
  repeat match goal with |- context [if ?b then _ else _] => destruct b end; lia.
Qed.

Ltac bcd_field :=
  rewrite ?u8_id by (unfold is_u8; lia);
  rewrite ?bcd2dec_dec2bcd by lia; try lia; try reflexivity.

(** Decoding an encoded time restores every calendar field, keeps the
    destination's [tm_yday] and clears [tm_isdst]. *)
Lemma regs_time_time_regs t t0 :
  valid_tm t ->
  regs_time (time_regs t) t0 =
  {| tm_sec := tm_sec t; tm_min := tm_min t; tm_hour := tm_hour t;
     tm_mday := tm_mday t; tm_mon := tm_mon t; tm_year := tm_year t;
     tm_wday := tm_wday t; tm_yday := tm_yday t0; tm_isdst := 0 |}.
Proof.
  intros [Hy Hmo Hd Hh Hmi Hs Hw].
  pose proof (days_in_month_le (tm_year t) (tm_mon t)) as Hdm.
  unfold regs_time, time_regs, idx; cbn [nth].
  assert (Hhour : Z.land (dec2bcd (u8 (tm_hour t))) DS3231_12HOUR_FLAG = 0).
  { apply land_0x40_small. rewrite u8_id by (unfold is_u8; lia).
    rewrite dec2bcd_digits by lia. zlia. }
  assert (Hmon : Z.land (dec2bcd (u8 (tm_mon t + 1))) DS3231_MONTH_MASK
                 = dec2bcd (u8 (tm_mon t + 1))).
  { apply land_0x1f_small. rewrite u8_id by (unfold is_u8; lia).
    rewrite dec2bcd_digits by lia. zlia. }
  rewrite Hhour, Hmon. cbn [Z.eqb negb].
  f_equal; bcd_field.
Qed.


Lemma time_regs_bytes t : map u8 (time_regs t) = time_regs t.
Proof. unfold time_regs, dec2bcd. cbn [map]. rewrite !u8_u8. reflexivity. Qed.

(** C2: for every valid calendar time t (year 2000..2099, month 0..11, day
    of month 1.. consistent with the month, hour 0..23, minute and second
    0..59, weekday 0..6), decoding the seven-byte image that the encoder
    produces gives t back, the DST flag apart, which decoding sets to 0; and
    on a chip whose transport works, get-time after set-time returns t in
    the same way. *)
Theorem time_roundtrip (t : tm) :
  valid_tm t ->
  regs_time (time_regs t) t = with_isdst t 0 /\
  (forall t0, same_calendar (regs_time (time_regs t) t0) t) /\
  (forall c data0, script c = [] ->
     fst (ds3231_set_time t c) = true /\
     fst (ds3231_get_time t data0 (snd (ds3231_set_time t c))) = (true, with_isdst t 0)).
Proof.
  intros Hv. split; [| split].
  - rewrite regs_time_time_regs by exact Hv. reflexivity.
  - intros t0. rewrite regs_time_time_regs by exact Hv.
    unfold same_calendar; cbn. repeat split.
  - intros c data0 Hs.
    unfold ds3231_set_time, ds3231_get_time, io_bind, io_ret.
    rewrite chip_write_ok by exact Hs. cbn [fst snd].
    rewrite chip_read_ok by reflexivity. cbn [regs].
    split; [reflexivity |].
    change 7%nat with (length (time_regs t)).
    rewrite load_store, time_regs_bytes, regs_time_time_regs by exact Hv.
    reflexivity.
Qed.

Lemma leap_day_valid : valid_tm leap_day.
Proof.
  constructor; unfold leap_day; cbn [tm_sec tm_min tm_hour tm_mday tm_mon tm_year tm_wday];
    try lia.
  change (days_in_month 2024 1) with 29. lia.
Defined.

Lemma time_roundtrip_witness :
  valid_tm leap_day /\
  regs_time (time_regs leap_day) leap_day = with_isdst leap_day 0 /\
  fst (ds3231_get_time leap_day [] (snd (ds3231_set_time leap_day (healthy empty))))
  = (true, with_isdst leap_day 0).
Proof.
  split; [exact leap_day_valid |].
  destruct (time_roundtrip leap_day leap_day_valid) as (Hcodec & _ & Hchip).
  split; [exact Hcodec |].
  exact (proj2 (Hchip (healthy empty) [] eq_refl)).
Defined.

(** ** Temperature *)

Lemma shiftl2 x : Z.shiftl x 2 = 4 * x.
Proof. rewrite Z.shiftl_mul_pow2 by lia. change (2 ^ 2) with 4. lia. Qed.

Lemma shiftr2 x : Z.shiftr x 2 = x / 4.
Proof. rewrite Z.shiftr_div_pow2 by lia. reflexivity. Qed.

Lemma shiftr6 x : Z.shiftr x 6 = x / 64.
Proof. rewrite Z.shiftr_div_pow2 by lia. reflexivity. Qed.

(** The raw temperature as a number: four times the signed high byte plus
    the top two bits of the low byte. *)
Lemma raw_temp_value hi lo :
  is_u8 lo -> raw_temp [hi; lo] = 4 * i8 hi + lo / 64.
Proof.
  intros Hlo. unfold raw_temp, idx; cbn [nth].
  pose proof (i8_range hi) as Hhi. unfold is_u8 in Hlo.
  rewrite (i16_id (i8 hi)) by lia.
  rewrite <- shiftl_add_lor by (rewrite ?shiftr6; change (2 ^ 2) with 4; zlia).
  rewrite shiftl2, shiftr6. apply i16_id. zlia.
Qed.

Lemma raw_temp_lor hi lo :
  is_u8 lo -> raw_temp [hi; lo] = Z.lor (Z.shiftl (i8 hi) 2) (Z.shiftr lo 6).
Proof.
  intros Hlo. rewrite raw_temp_value by exact Hlo. unfold is_u8 in Hlo.
  rewrite <- shiftl_add_lor by (rewrite ?shiftr6; change (2 ^ 2) with 4; zlia).
  rewrite shiftl2, shiftr6. reflexivity.
Qed.

Lemma raw_temp_range hi lo : is_u8 lo -> -512 <= raw_temp [hi; lo] < 512.
Proof.
  intros Hlo. rewrite raw_temp_value by exact Hlo.
  pose proof (i8_range hi). unfold is_u8 in Hlo. zlia.
Qed.

(** The integer temperature is the signed high byte. *)
Lemma raw_temp_shiftr hi lo :
  is_u8 lo -> i8 (Z.shiftr (raw_temp [hi; lo]) 2) = Z.shiftr (raw_temp [hi; lo]) 2.
Proof.
  intros Hlo. pose proof (raw_temp_range hi lo Hlo).
  apply i8_id. rewrite shiftr2. zlia.
Qed.

(** C7: the raw temperature of a register pair (hi, lo) is
    (signed hi << 2) | (lo >> 6), a 10-bit signed value; on a working
    transport get-raw-temperature returns it, get-temperature-integer returns
    raw >> 2 and get-temperature-float a quarter of raw.  The pair
    (0x19, 0x00) gives raw 100, integer 25 and float 25.0; the pair
    (0xFF, 0x00) gives integer -1. *)
Theorem temperature_decode (hi lo : Z) :
  is_u8 hi -> is_u8 lo ->
  raw_temp [hi; lo] = Z.lor (Z.shiftl (i8 hi) 2) (Z.shiftr lo 6) /\
  -512 <= raw_temp [hi; lo] < 512 /\
  (forall c temp t_int tempf,
     script c = [] -> load (regs c) DS3231_ADDR_TEMP 2 = [hi; lo] ->
     fst (ds3231_get_raw_temp temp c) = (true, raw_temp [hi; lo]) /\
     fst (ds3231_get_temp_integer temp t_int c)
       = (true, Z.shiftr (raw_temp [hi; lo]) 2) /\
     fst (ds3231_get_temp_float tempf t_int c)
       = (true, (inject_Z (raw_temp [hi; lo]) * (1 # 4))%Q)) /\
  fst (ds3231_get_raw_temp 0 (temp_chip 0x19 0x00)) = (true, 100) /\
  fst (ds3231_get_temp_integer 0 0 (temp_chip 0x19 0x00)) = (true, 25) /\
  (exists q, fst (ds3231_get_temp_float 0%Q 0 (temp_chip 0x19 0x00)) = (true, q)
             /\ (q == 25)%Q) /\
  fst (ds3231_get_temp_integer 0 0 (temp_chip 0xFF 0x00)) = (true, -1).
Proof.
  intros Hhi Hlo. split; [| split; [| split]].
  - apply raw_temp_lor, Hlo.
  - apply raw_temp_range, Hlo.
  - intros c temp t_int tempf Hs Hld.
    unfold ds3231_get_temp_integer, ds3231_get_temp_float, ds3231_get_raw_temp,
      io_bind, io_ret.
    rewrite chip_read_ok by exact Hs. rewrite Hld. cbn [fst snd].
    rewrite raw_temp_shiftr by exact Hlo. repeat split.
  - repeat split; try reflexivity.
    eexists. split; [reflexivity | reflexivity].
Qed.

Lemma temperature_decode_witness :
  is_u8 0xFF /\ is_u8 0x40 /\
  raw_temp [0xFF; 0x40] = Z.lor (Z.shiftl (i8 0xFF) 2) (Z.shiftr 0x40 6) /\
  -512 <= raw_temp [0xFF; 0x40] < 512 /\
  fst (ds3231_get_temp_integer 0 0 (temp_chip 0xFF 0x40))
  = (true, Z.shiftr (raw_temp [0xFF; 0x40]) 2).
Proof.
  assert (Hhi : is_u8 0xFF) by (unfold is_u8; lia).
  assert (Hlo : is_u8 0x40) by (unfold is_u8; lia).
  destruct (temperature_decode 0xFF 0x40 Hhi Hlo) as (Hraw & Hrange & Hchip & _).
  destruct (Hchip (temp_chip 0xFF 0x40) 0 0 0%Q eq_refl eq_refl) as (_ & Hint & _).
  split; [exact Hhi |]. split; [exact Hlo |]. split; [exact Hraw |].
  split; [exact Hrange | exact Hint].
Defined.

(** ** Alarms *)

Lemma alarm1_regs_length time1 option1 : length (alarm1_regs time1 option1) = 4%nat.
Proof. reflexivity. Qed.

Lemma alarm2_regs_length time2 option2 : length (alarm2_regs time2 option2) = 3%nat.
Proof. reflexivity. Qed.

(** For a weekday 0..6 the day byte of alarm 1 is the BCD weekday masked by
    [DS3231_ALARM_WDAY], which is zero. *)
Lemma alarm1_day_byte time1 :
  0 <= tm_wday time1 <= 6 ->
  idx (alarm1_regs time1 DS3231_ALARM1_MATCH_SECMINHOURDAY) 3 = 0.
Proof.
  intros Hw. unfold alarm1_regs, idx. cbn.
  apply (land_0x40_small (dec2bcd (u8 (tm_wday time1 + 1)))).
  rewrite u8_id by (unfold is_u8; lia).
  rewrite dec2bcd_digits by lia. zlia.
Qed.

(** C3 (as the code behaves): set-alarm for alarm 1 with rate
    match-seconds-minutes-hours-day on a Thursday emits four bytes, and the
    fourth is 0x00: the day-indicator bit 0x40 is clear and the weekday is
    lost, where the specification asks for 0x40 | BCD(weekday + 1) = 0x45. *)
Theorem alarm1_day_byte_loses_weekday :
  ds3231_set_alarm DS3231_ALARM_1 leap_day DS3231_ALARM1_MATCH_SECMINHOURDAY
      leap_day DS3231_ALARM2_EVERY_MIN (healthy empty)
  = hal_i2c_write_reg DS3231_ADDR_ALARM1 [0x58; 0x59; 0x23; 0x00] (healthy empty) /\
  length (alarm_regs DS3231_ALARM_1 leap_day DS3231_ALARM1_MATCH_SECMINHOURDAY
            leap_day DS3231_ALARM2_EVERY_MIN) = 4%nat /\
  Z.land (idx (alarm1_regs leap_day DS3231_ALARM1_MATCH_SECMINHOURDAY) 3)
         DS3231_ALARM_WDAY = 0 /\
  idx (alarm1_regs leap_day DS3231_ALARM1_MATCH_SECMINHOURDAY) 3
    <> Z.lor DS3231_ALARM_WDAY (dec2bcd (tm_wday leap_day + 1)).
Proof. repeat split. discriminate. Qed.

(** With alarm 2 alone the transport is called once, at the alarm 2 base
    address, with the three alarm 2 bytes. *)
Lemma set_alarm_2 {bus : Type} {transport : Transport bus}
    time1 option1 time2 option2 :
  ds3231_set_alarm (bus := bus) DS3231_ALARM_2 time1 option1 time2 option2
  = hal_i2c_write_reg DS3231_ADDR_ALARM2 (alarm2_regs time2 option2).
Proof. reflexivity. Qed.

(** C9: set-alarm with target alarm 2 and rate match-minutes-only is one
    transport write of exactly three bytes at the alarm 2 base address 0x0B:
    the BCD of the requested minute, then twice the sentinel 0x80; on a
    working chip the registers 0x0B..0x0D then hold these bytes. *)
Theorem alarm2_match_min (time1 : tm) (option1 : ds3231_alarm1_rate_t) (time2 : tm) :
  (forall c : chip,
     ds3231_set_alarm DS3231_ALARM_2 time1 option1 time2 DS3231_ALARM2_MATCH_MIN c
     = hal_i2c_write_reg 0x0B [dec2bcd (u8 (tm_min time2)); 0x80; 0x80] c) /\
  (forall rs,
     ds3231_set_alarm DS3231_ALARM_2 time1 option1 time2 DS3231_ALARM2_MATCH_MIN
       (healthy rs)
     = (true,
        {| regs := store rs 0x0B [dec2bcd (u8 (tm_min time2)); 0x80; 0x80];
           script := [];
           trace := [EvWrite 0x0B [dec2bcd (u8 (tm_min time2)); 0x80; 0x80] true] |})) /\
  (forall rs,
     load (regs (snd (ds3231_set_alarm DS3231_ALARM_2 time1 option1 time2
                        DS3231_ALARM2_MATCH_MIN (healthy rs))))
          0x0B 3
     = [dec2bcd (u8 (tm_min time2)); 0x80; 0x80]).
Proof.
  split; [| split].
  - intros c. reflexivity.
  - intros rs. reflexivity.
  - intros rs. rewrite set_alarm_2.
    rewrite chip_write_ok by reflexivity. cbn [snd regs healthy].
    change 3%nat with (length (alarm2_regs time2 DS3231_ALARM2_MATCH_MIN)).
    change 0x0B with DS3231_ADDR_ALARM2.
    rewrite load_store. unfold alarm2_regs, dec2bcd. cbn [map Z.leb Z.eqb alarm2_rate_val Z.compare Pos.compare Pos.compare_cont].
    rewrite u8_u8. reflexivity.
Qed.

(** C10: set-alarm with target DS3231_ALARM_NONE is not a no-op: it is the
    same transport call as with DS3231_ALARM_BOTH, one write of the four
    alarm 1 bytes followed by the three alarm 2 bytes, seven in all, at the
    alarm 1 base address 0x07. *)
Theorem alarm_none_is_both (time1 : tm) (option1 : ds3231_alarm1_rate_t)
    (time2 : tm) (option2 : ds3231_alarm2_rate_t) :
  (forall (bus : Type) (transport : Transport bus) (dev : bus),
     ds3231_set_alarm DS3231_ALARM_NONE time1 option1 time2 option2 dev
     = ds3231_set_alarm DS3231_ALARM_BOTH time1 option1 time2 option2 dev) /\
  (forall (bus : Type) (transport : Transport bus) (dev : bus),
     ds3231_set_alarm DS3231_ALARM_NONE time1 option1 time2 option2 dev
     = hal_i2c_write_reg 0x07 (alarm1_regs time1 option1 ++ alarm2_regs time2 option2) dev) /\
  length (alarm_regs DS3231_ALARM_NONE time1 option1 time2 option2) = 7%nat /\
  (forall c : chip,
     trace (snd (ds3231_set_alarm DS3231_ALARM_NONE time1 option1 time2 option2 c))
     = trace c ++ [EvWrite 0x07 (alarm1_regs time1 option1 ++ alarm2_regs time2 option2)
                     (next_ok c)]).
Proof. repeat split. Qed.

(** ** Flags *)

(** On bytes, [flag_update] is the or, and-not or replacement that the
    comment above [ds3231_set_flag] announces. *)
Lemma flag_update_set data bits :
  is_u8 data -> is_u8 bits -> flag_update data bits DS3231_SET = Z.lor data bits.
Proof.
  intros Hd Hb. unfold flag_update. cbn [Z.eqb DS3231_SET DS3231_REPLACE].
  unfold u8. change 256 with (2 ^ 8). rewrite <- Z.land_ones by lia.
  rewrite Z.land_lor_distr_l, !Z.land_ones by lia. change (2 ^ 8) with 256.
  unfold is_u8 in *. rewrite !Z.mod_small by lia. reflexivity.
Qed.

Lemma flag_update_clear data bits :
  is_u8 data -> flag_update data bits DS3231_CLEAR = Z.land data (Z.lnot bits).
Proof.
  intros Hd. unfold flag_update. cbn [Z.eqb DS3231_CLEAR DS3231_SET DS3231_REPLACE].
  unfold u8. change 256 with (2 ^ 8). rewrite <- Z.land_ones by lia.
  rewrite <- Z.land_assoc, (Z.land_comm (Z.lnot bits)), Z.land_assoc.
  rewrite Z.land_ones by lia. change (2 ^ 8) with 256.
  unfold is_u8 in Hd. rewrite Z.mod_small by lia. reflexivity.
Qed.

Lemma flag_update_replace data bits : flag_update data bits DS3231_REPLACE = bits.
Proof. reflexivity. Qed.

(** [ds3231_set_flag] calls the transport to read only: whatever the address,
    the bits, the mode and the outcomes of the calls, the registers of the
    chip are what they were. *)
Lemma set_flag_regs addr bits mode (c : chip) :
  regs (snd (ds3231_set_flag addr bits mode c)) = regs c.
Proof.
  unfold ds3231_set_flag, io_bind, io_ret.
  cbn [hal_i2c_read_reg chip_transport]. unfold chip_read.
  destruct (next_ok c); cbn; reflexivity.
Qed.

(** It issues no write at all. *)
Lemma set_flag_no_write addr bits mode (c : chip) :
  exists evs, trace (snd (ds3231_set_flag addr bits mode c)) = trace c ++ evs
              /\ forallb (fun e => negb (is_write e)) evs = true.
Proof.
  unfold ds3231_set_flag, io_bind, io_ret.
  cbn [hal_i2c_read_reg chip_transport]. unfold chip_read.
  destruct (next_ok c); cbn.
  - eexists. rewrite <- app_assoc. split; reflexivity.
  - eexists. split; reflexivity.
Qed.

(** The primitive of the specification does write the transformed byte. *)
Lemma spec_set_flag_writes addr bits mode rs :
  reg_get (regs (snd (spec_set_flag addr bits mode (healthy rs)))) addr
  = u8 (flag_update (reg_get rs addr) bits mode).
Proof.
  unfold spec_set_flag, io_bind.
  rewrite chip_read_ok by reflexivity. cbn [load idx nth regs healthy].
  rewrite chip_write_ok by reflexivity. cbn [snd regs store].
  rewrite reg_get_insert_eq. apply u8_u8.
Qed.

(** [ds3231_set_flag] fails when its first read fails. *)
Lemma set_flag_read_failure {bus : Type} {transport : Transport bus}
    addr bits mode (dev : bus) :
  fst (hal_i2c_read_reg addr 1 dev) = None ->
  fst (ds3231_set_flag addr bits mode dev) = false.
Proof.
  unfold ds3231_set_flag, io_bind, io_ret.
  destruct (hal_i2c_read_reg addr 1 dev) as [r dev']. cbn [fst].
  intros ->. reflexivity.
Qed.

(** C1 (as the code behaves): clearing the oscillator-stop flag on a working
    chip whose status register holds 0x88 reports success after two reads and
    no write; the status register still holds 0x88, where the transformed
    byte 0x88 AND (NOT 0x80) is 0x08, the value the read-transform-write
    primitive of the specification leaves in the register. *)
Theorem clear_oscillator_stop_flag_writes_nothing :
  ds3231_clear_oscillator_stop_flag stopped_chip
  = (true,
     {| regs := regs stopped_chip; script := [];
        trace := [EvRead DS3231_ADDR_STATUS 1 true; EvRead DS3231_ADDR_STATUS 1 true] |}) /\
  reg_get (regs (snd (ds3231_clear_oscillator_stop_flag stopped_chip)))
          DS3231_ADDR_STATUS = 0x88 /\
  flag_update 0x88 DS3231_STAT_OSCILLATOR DS3231_CLEAR = 0x08 /\
  reg_get (regs (snd (spec_set_flag DS3231_ADDR_STATUS DS3231_STAT_OSCILLATOR
                        DS3231_CLEAR stopped_chip)))
          DS3231_ADDR_STATUS = 0x08.
Proof. repeat split. Qed.

(** ** Square-wave frequency *)

(** Setting the square-wave frequency changes no register. *)
Lemma set_squarewave_freq_regs freq (c : chip) :
  regs (snd (ds3231_set_squarewave_freq freq c)) = regs c.
Proof.
  unfold ds3231_set_squarewave_freq. unfold io_bind at 1 2.
  destruct (ds3231_get_flag _ _ _ c) as [rf c1] eqn:E1.
  destruct (ds3231_set_flag _ _ _ c1) as [r c2] eqn:E2.
  cbn [io_ret snd].
  change c2 with (snd (r, c2)). rewrite <- E2, set_flag_regs.
  change c1 with (snd (rf, c1)). rewrite <- E1.
  unfold ds3231_get_flag, io_bind, io_ret.
  cbn [hal_i2c_read_reg chip_transport]. unfold chip_read.
  destruct (next_ok c); reflexivity.
Qed.

(** C6 (as the code behaves): with the control register at 0x04, setting the
    frequency to 1024 Hz (code 0x08) reports success and leaves the control
    register at 0x04; the specification asks for (0x04 AND NOT 0x18) OR 0x08 = 0x0C.
    The three transport calls are reads. *)
Theorem set_squarewave_freq_writes_nothing :
  ds3231_set_squarewave_freq DS3231_SQWAVE_1024HZ ints_chip
  = (true,
     {| regs := regs ints_chip; script := [];
        trace := [EvRead DS3231_ADDR_CONTROL 1 true; EvRead DS3231_ADDR_CONTROL 1 true;
                  EvRead DS3231_ADDR_CONTROL 1 true] |}) /\
  reg_get (regs (snd (ds3231_set_squarewave_freq DS3231_SQWAVE_1024HZ ints_chip)))
          DS3231_ADDR_CONTROL = 0x04 /\
  Z.lor (Z.land 0x04 (Z.lnot 0x18)) (sqwave_val DS3231_SQWAVE_1024HZ) = 0x0C.
Proof. repeat split. Qed.

(** ** Transport failures *)

Section Failures.

Context {bus : Type} {transport : Transport bus}.

(** Operations that hand the transport's outcome on. *)
Lemma set_time_outcome time (dev : bus) :
  fst (ds3231_set_time time dev) = fst (hal_i2c_write_reg DS3231_ADDR_TIME (time_regs time) dev).
Proof. reflexivity. Qed.

Lemma set_alarm_outcome alarms time1 option1 time2 option2 (dev : bus) :
  fst (ds3231_set_alarm alarms time1 option1 time2 option2 dev)
  = fst (hal_i2c_write_reg (alarm_base alarms)
           (alarm_regs alarms time1 option1 time2 option2) dev).
Proof. reflexivity. Qed.

Lemma get_flag_outcome addr mask flag (dev : bus) :
  fst (fst (ds3231_get_flag addr mask flag dev))
  = succeeded (fst (hal_i2c_read_reg addr 1 dev)).
Proof.
  unfold ds3231_get_flag, io_bind, io_ret.
  destruct (hal_i2c_read_reg addr 1 dev) as [[d |] dev']; reflexivity.
Qed.

Lemma get_raw_temp_outcome temp (dev : bus) :
  fst (fst (ds3231_get_raw_temp temp dev))
  = succeeded (fst (hal_i2c_read_reg DS3231_ADDR_TEMP 2 dev)).
Proof.
  unfold ds3231_get_raw_temp, io_bind, io_ret.
  destruct (hal_i2c_read_reg DS3231_ADDR_TEMP 2 dev) as [[d |] dev']; reflexivity.
Qed.

Lemma get_temp_integer_outcome temp t_int (dev : bus) :
  fst (fst (ds3231_get_temp_integer temp t_int dev))
  = succeeded (fst (hal_i2c_read_reg DS3231_ADDR_TEMP 2 dev)).
Proof.
  unfold ds3231_get_temp_integer, ds3231_get_raw_temp, io_bind, io_ret.
  destruct (hal_i2c_read_reg DS3231_ADDR_TEMP 2 dev) as [[d |] dev']; reflexivity.
Qed.

(** Operations that report success whatever the transport does. *)
Lemma get_time_always_true time data0 (dev : bus) :
  fst (fst (ds3231_get_time time data0 dev)) = true.
Proof.
  unfold ds3231_get_time, io_bind, io_ret.
  destruct (hal_i2c_read_reg DS3231_ADDR_TIME 7 dev); reflexivity.
Qed.

Lemma get_oscillator_stop_flag_always_true flag (dev : bus) :
  fst (fst (ds3231_get_oscillator_stop_flag flag dev)) = true.
Proof.
  unfold ds3231_get_oscillator_stop_flag, io_bind, io_ret.
  destruct (ds3231_get_flag _ _ _ dev); reflexivity.
Qed.

Lemma set_squarewave_freq_always_true freq (dev : bus) :
  fst (ds3231_set_squarewave_freq freq dev) = true.
Proof.
  unfold ds3231_set_squarewave_freq, io_bind, io_ret.
  destruct (ds3231_get_flag _ _ _ dev) as [rf dev1].
  destruct (ds3231_set_flag _ _ _ dev1); reflexivity.
Qed.

End Failures.

(** C4 (as the code behaves): on a chip whose transport calls fail, get-time,
    get-oscillator-stop-flag and set-squarewave-frequency each report
    success; the trace shows the failed reads.  get-time then hands back a
    time converted from the stale contents of its buffer, and
    get-oscillator-stop-flag the flag value false. *)
Theorem failed_reads_reported_as_success :
  ds3231_get_time leap_day [0; 0; 0; 0; 0; 0; 0] (dead_chip 1)
  = ((true, regs_time [0; 0; 0; 0; 0; 0; 0] leap_day),
     {| regs := empty; script := [];
        trace := [EvRead DS3231_ADDR_TIME 7 false] |}) /\
  ds3231_get_oscillator_stop_flag true (dead_chip 1)
  = ((true, false),
     {| regs := empty; script := [];
        trace := [EvRead DS3231_ADDR_STATUS 1 false] |}) /\
  ds3231_set_squarewave_freq DS3231_SQWAVE_4096HZ (dead_chip 2)
  = (true,
     {| regs := empty; script := [];
        trace := [EvRead DS3231_ADDR_CONTROL 1 false;
                  EvRead DS3231_ADDR_CONTROL 1 false] |}).
Proof. repeat split. Qed.

(** ** Set-time and its input *)

Lemma bad_time_invalid : ~ valid_tm bad_time.
Proof. intros [Hy _ _ _ _ _ _]. cbn in Hy. lia. Qed.

Lemma time_regs_are_bytes time : Forall is_u8 (time_regs time).
Proof. unfold time_regs, dec2bcd. repeat constructor; apply u8_range. Qed.

(** C5 (counterexample): the calendar time [bad_time] (second 75, year 1999)
    is not valid, yet set-time reports success on a working chip after
    writing seven bytes at address 0x00. *)
Lemma set_time_accepts_invalid :
  ~ valid_tm bad_time /\
  fst (ds3231_set_time bad_time (healthy empty)) = true /\
  trace (snd (ds3231_set_time bad_time (healthy empty)))
  = [EvWrite 0x00 [0x75; 0x00; 0x00; 0x01; 0x01; 0x01; 0x95] true].
Proof. split; [exact bad_time_invalid | split; reflexivity]. Qed.

(** C5 (amended): set-time checks nothing.  For every calendar time, valid or
    not, it is one transport write, at the time base address 0x00, of the
    seven bytes obtained with dec2bcd from the fields truncated to eight
    bits, and its result is the outcome of that write. *)
Theorem set_time_always_writes (time : tm) :
  (forall (bus : Type) (transport : Transport bus) (dev : bus),
     ds3231_set_time time dev = hal_i2c_write_reg 0x00 (time_regs time) dev) /\
  length (time_regs time) = 7%nat /\
  Forall is_u8 (time_regs time) /\
  (forall c : chip,
     fst (ds3231_set_time time c) = next_ok c /\
     trace (snd (ds3231_set_time time c))
     = trace c ++ [EvWrite 0x00 (time_regs time) (next_ok c)]).
Proof.
  split; [| split; [| split]].
  - intros bus transport dev. reflexivity.
  - reflexivity.
  - apply time_regs_are_bytes.
  - intros c. split; reflexivity.
Qed.

(** * Further properties of the driver *)

(** ** BCD beyond the round trip *)

Lemma is_bcd_byte b : is_bcd b -> 0 <= b <= 0x99.
Proof. unfold is_bcd. intros [Hh Hl]. zlia. Qed.

Lemma bcd_byte_reencode b :
  is_bcd b -> 0 <= bcd2dec b <= 99 /\ dec2bcd (bcd2dec b) = b.
Proof.
  intros Hb. pose proof (is_bcd_byte b Hb) as Hr. destruct Hb as [Hh Hl].
  rewrite bcd2dec_byte by (unfold is_u8; lia).
  rewrite shiftr4, land15.
  split; [lia |].
  rewrite dec2bcd_digits by lia. zlia.
Qed.

(** X1: every byte with decimal nibbles is the encoding of the number it decodes
    to, and that number has two digits. *)
Theorem dec2bcd_bcd2dec (b : Z) :
  is_bcd b -> 0 <= bcd2dec b <= 99 /\ dec2bcd (bcd2dec b) = b.
Proof. apply bcd_byte_reencode. Qed.

Lemma dec2bcd_bcd2dec_witness :
  is_bcd 0x59 /\ 0 <= bcd2dec 0x59 <= 99 /\ dec2bcd (bcd2dec 0x59) = 0x59.
Proof.
  assert (H : is_bcd 0x59) by (unfold is_bcd; split; zlia).
  split; [exact H | exact (dec2bcd_bcd2dec 0x59 H)].
Defined.

(** X2: [dec2bcd] on a byte that is not a two-digit number: up to 159 the high
    nibble takes the values 10..15 and decoding still gives the number back;
    from 160 on the result wraps and is the encoding of the number less
    160. *)
Theorem dec2bcd_out_of_range (n : Z) :
  100 <= n <= 255 ->
  (n <= 159 -> 10 <= dec2bcd n / 16 <= 15 /\ bcd2dec (dec2bcd n) = n) /\
  (160 <= n -> dec2bcd n = dec2bcd (n - 160) /\ bcd2dec (dec2bcd n) = n - 160).
Proof.
  intros Hn. split.
  - intros Hle.
    assert (Hd : dec2bcd n = 16 * (n / 10) + n mod 10).
    { unfold dec2bcd. rewrite shiftl4. apply u8_id. unfold is_u8. zlia. }
    rewrite bcd2dec_byte by (rewrite Hd; unfold is_u8; zlia).
    rewrite shiftr4, land15, Hd. split; zlia.
  - intros Hge.
    assert (Hd : dec2bcd n = 16 * (n / 10) + n mod 10 - 256).
    { unfold dec2bcd, u8. rewrite shiftl4. zlia. }
    assert (Hd' : dec2bcd (n - 160) = 16 * ((n - 160) / 10) + (n - 160) mod 10).
    { apply dec2bcd_digits. lia. }
    split.
    + rewrite Hd, Hd'. zlia.
    + rewrite bcd2dec_byte by (rewrite Hd; unfold is_u8; zlia).
      rewrite shiftr4, land15, Hd. zlia.
Qed.

Lemma dec2bcd_out_of_range_witness :
  100 <= 165 <= 255 /\ 160 <= 165 /\
  dec2bcd 165 = dec2bcd (165 - 160) /\ bcd2dec (dec2bcd 165) = 165 - 160.
Proof.
  assert (H : 100 <= 165 <= 255) by lia.
  assert (H' : 160 <= 165) by lia.
  split; [exact H |]. split; [exact H' |].
  exact (proj2 (dec2bcd_out_of_range 165 H) H').
Defined.

(** ** Decoding register images *)

(** X3: encoding what get-time decodes from a 24-hour register image with decimal
    nibbles gives the image back, the month byte reduced to its low five
    bits: the century bit is dropped. *)
Theorem time_regs_regs_time (s m h w d mo y : Z) (t0 : tm) :
  is_bcd s -> is_bcd m -> is_bcd h -> h < 0x40 -> is_bcd w -> is_bcd d ->
  is_bcd (Z.land mo DS3231_MONTH_MASK) -> is_bcd y ->
  time_regs (regs_time [s; m; h; w; d; mo; y] t0)
  = [s; m; h; w; d; Z.land mo DS3231_MONTH_MASK; y].
Proof.
  intros Hs Hm Hh Hh24 Hw Hd Hmo Hy.
  destruct (bcd_byte_reencode s Hs) as [Rs Es].
  destruct (bcd_byte_reencode m Hm) as [Rm Em].
  destruct (bcd_byte_reencode h Hh) as [Rh Eh].
  destruct (bcd_byte_reencode w Hw) as [Rw Ew].
  destruct (bcd_byte_reencode d Hd) as [Rd Ed].
  destruct (bcd_byte_reencode _ Hmo) as [Rmo Emo].
  destruct (bcd_byte_reencode y Hy) as [Ry Ey].
  pose proof (is_bcd_byte h Hh) as Bh.
  unfold time_regs, regs_time, idx.
  cbn [nth tm_sec tm_min tm_hour tm_wday tm_mday tm_mon tm_year].
  rewrite (land_0x40_small h) by lia. cbn [Z.eqb negb].
  replace (bcd2dec w - 1 + 1) with (bcd2dec w) by lia.
  replace (bcd2dec (Z.land mo DS3231_MONTH_MASK) - 1 + 1)
    with (bcd2dec (Z.land mo DS3231_MONTH_MASK)) by lia.
  replace (bcd2dec y + 2000 - 2000) with (bcd2dec y) by lia.
  rewrite !u8_id by (unfold is_u8; lia).
  rewrite Es, Em, Eh, Ew, Ed, Emo, Ey. reflexivity.
Qed.

Lemma time_regs_regs_time_witness :
  time_regs (regs_time century_image leap_day)
  = [0x58; 0x59; 0x23; 0x05; 0x29; Z.land 0x82 DS3231_MONTH_MASK; 0x24].
Proof.
  apply (time_regs_regs_time 0x58 0x59 0x23 0x05 0x29 0x82 0x24 leap_day);
    try change (Z.land 0x82 DS3231_MONTH_MASK) with 2;
    try (unfold is_bcd; split; zlia); lia.
Defined.

(** X4: in 12-hour mode (bit 6 of the hour byte set) the decoded hour is the BCD
    hour 1..12 less one, plus twelve when the PM bit is set: 1 AM becomes 0,
    12 AM becomes 11, 1 PM becomes 12 and 12 PM becomes 23. *)
Theorem regs_time_12hour (h : Z) (pm : bool) (s m w d mo y : Z) (t0 : tm) :
  1 <= h <= 12 ->
  tm_hour (regs_time
             [s; m;
              Z.lor DS3231_12HOUR_FLAG
                (Z.lor (if pm then DS3231_PM_FLAG else 0) (dec2bcd h));
              w; d; mo; y] t0)
  = h - 1 + (if pm then 12 else 0) /\
  0 <= h - 1 + (if pm then 12 else 0) <= 23.
Proof.
  intros Hh. split; [| destruct pm; lia].
  assert (Hcases : h = 1 \/ h = 2 \/ h = 3 \/ h = 4 \/ h = 5 \/ h = 6 \/ h = 7 \/
                   h = 8 \/ h = 9 \/ h = 10 \/ h = 11 \/ h = 12) by lia.
  repeat (destruct Hcases as [-> | Hcases]); try subst h; destruct pm; reflexivity.
Qed.

Lemma regs_time_12hour_witness :
  1 <= 12 <= 12 /\
  tm_hour (regs_time
             [0; 0;
              Z.lor DS3231_12HOUR_FLAG (Z.lor DS3231_PM_FLAG (dec2bcd 12));
              1; 1; 1; 0] leap_day)
  = 12 - 1 + 12.
Proof.
  assert (H : 1 <= 12 <= 12) by lia.
  split; [exact H |].
  exact (proj1 (regs_time_12hour 12 true 0 0 1 1 1 0 leap_day H)).
Defined.

(** ** What the writes touch *)


Lemma store_app l1 : forall rs a l2,
  store rs a (l1 ++ l2) = store (store rs a l1) (a + Z.of_nat (length l1)) l2.
Proof.
  induction l1 as [| x l1 IH]; intros rs a l2.
  - cbn. rewrite Z.add_0_r. reflexivity.
  - cbn [app store length]. rewrite IH. f_equal. lia.
Qed.







(** X7: setting both alarms in one call leaves the registers as setting alarm 1
    and then alarm 2 in two calls does. *)
Theorem set_alarm_both_is_1_then_2 (time1 : tm) (option1 : ds3231_alarm1_rate_t)
    (time2 : tm) (option2 : ds3231_alarm2_rate_t) (rs : gmap Z Z) :
  regs (snd (ds3231_set_alarm DS3231_ALARM_BOTH time1 option1 time2 option2 (healthy rs)))
  = regs (snd (ds3231_set_alarm DS3231_ALARM_2 time1 option1 time2 option2
                 (snd (ds3231_set_alarm DS3231_ALARM_1 time1 option1 time2 option2
                         (healthy rs))))).
Proof.
  unfold ds3231_set_alarm.
  repeat (rewrite chip_write_ok by reflexivity; cbn [snd regs healthy]).
  change (alarm_regs DS3231_ALARM_BOTH time1 option1 time2 option2)
    with (alarm1_regs time1 option1 ++ alarm2_regs time2 option2).
  change (alarm_regs DS3231_ALARM_1 time1 option1 time2 option2)
    with (alarm1_regs time1 option1).
  change (alarm_regs DS3231_ALARM_2 time1 option1 time2 option2)
    with (alarm2_regs time2 option2).
  rewrite store_app. reflexivity.
Qed.

(** ** Alarm bytes *)

Lemma testbit7_small x : 0 <= x < 128 -> Z.testbit x 7 = false.
Proof.
  intros Hx. apply Z.testbit_false; [lia |].
  rewrite Z.div_small by (change (2 ^ 7) with 128; lia). reflexivity.
Qed.

Lemma dec2bcd_small n : 0 <= n <= 59 -> 0 <= dec2bcd (u8 n) < 128.
Proof.
  intros Hn. rewrite u8_id by (unfold is_u8; lia).
  rewrite dec2bcd_digits by lia. zlia.
Qed.

Lemma weekday_byte_masked w :
  0 <= w <= 6 -> Z.land (dec2bcd (u8 (w + 1))) DS3231_ALARM_WDAY = 0.
Proof.
  intros Hw. apply land_0x40_small.
  rewrite u8_id by (unfold is_u8; lia).
  rewrite dec2bcd_digits by lia. zlia.
Qed.

Ltac mask_bit :=
  first [ reflexivity
        | apply testbit7_small; apply dec2bcd_small; lia ].

(** X8: for alarm fields within their ranges the mask bit (bit 7) of each of the
    four alarm 1 bytes is set exactly when the rate lies below the byte's
    threshold: all four for every-second, the last three for match-seconds,
    the last two for match-seconds-minutes, the last one for
    match-seconds-minutes-hours, none for the day and date rates. *)
Theorem alarm1_mask_bits (time1 : tm) (option1 : ds3231_alarm1_rate_t) :
  alarm_fields_ok time1 ->
  alarm_mask_bits (alarm1_regs time1 option1)
  = [ alarm1_rate_val option1 <? alarm1_rate_val DS3231_ALARM1_MATCH_SEC;
      alarm1_rate_val option1 <? alarm1_rate_val DS3231_ALARM1_MATCH_SECMIN;
      alarm1_rate_val option1 <? alarm1_rate_val DS3231_ALARM1_MATCH_SECMINHOUR;
      alarm1_rate_val option1 <? alarm1_rate_val DS3231_ALARM1_MATCH_SECMINHOURDAY ].
Proof.
  intros [Hs Hm Hh Hd Hw].
  pose proof (weekday_byte_masked (tm_wday time1) Hw) as Hday.
  destruct option1; unfold alarm_mask_bits, alarm1_regs;
    cbn [map alarm1_rate_val Z.leb Z.ltb Z.eqb Z.compare Pos.compare Pos.compare_cont Pos.eqb];
    rewrite ?Hday; repeat (f_equal; try mask_bit).
Qed.

Lemma leap_day_alarm_fields : alarm_fields_ok leap_day.
Proof. constructor; cbn; lia. Defined.

Lemma alarm1_mask_bits_witness :
  alarm_fields_ok leap_day /\
  alarm_mask_bits (alarm1_regs leap_day DS3231_ALARM1_MATCH_SECMIN)
  = [false; false; true; true].
Proof.
  split; [exact leap_day_alarm_fields |].
  exact (alarm1_mask_bits leap_day DS3231_ALARM1_MATCH_SECMIN leap_day_alarm_fields).
Defined.

(** X9: the same for the three alarm 2 bytes: all three for every-minute, the
    last two for match-minutes, the last one for match-minutes-hours, none
    for the day and date rates. *)
Theorem alarm2_mask_bits (time2 : tm) (option2 : ds3231_alarm2_rate_t) :
  alarm_fields_ok time2 ->
  alarm_mask_bits (alarm2_regs time2 option2)
  = [ alarm2_rate_val option2 <? alarm2_rate_val DS3231_ALARM2_MATCH_MIN;
      alarm2_rate_val option2 <? alarm2_rate_val DS3231_ALARM2_MATCH_MINHOUR;
      alarm2_rate_val option2 <? alarm2_rate_val DS3231_ALARM2_MATCH_MINHOURDAY ].
Proof.
  intros [Hs Hm Hh Hd Hw].
  pose proof (weekday_byte_masked (tm_wday time2) Hw) as Hday.
  destruct option2; unfold alarm_mask_bits, alarm2_regs;
    cbn [map alarm2_rate_val Z.leb Z.ltb Z.eqb Z.compare Pos.compare Pos.compare_cont Pos.eqb];
    rewrite ?Hday; repeat (f_equal; try mask_bit).
Qed.

Lemma alarm2_mask_bits_witness :
  alarm_fields_ok leap_day /\
  alarm_mask_bits (alarm2_regs leap_day DS3231_ALARM2_MATCH_MINHOUR)
  = [false; false; true].
Proof.
  split; [exact leap_day_alarm_fields |].
  exact (alarm2_mask_bits leap_day DS3231_ALARM2_MATCH_MINHOUR leap_day_alarm_fields).
Defined.

(** X10: with the date rates the alarm bytes are the BCD fields themselves:
    decoding them gives back seconds, minutes, hours and day of month for
    alarm 1, and minutes, hours and day of month for alarm 2. *)
Theorem alarm_date_fields (time : tm) :
  alarm_fields_ok time ->
  map bcd2dec (alarm1_regs time DS3231_ALARM1_MATCH_SECMINHOURDATE)
  = [tm_sec time; tm_min time; tm_hour time; tm_mday time] /\
  map bcd2dec (alarm2_regs time DS3231_ALARM2_MATCH_MINHOURDATE)
  = [tm_min time; tm_hour time; tm_mday time].
Proof.
  intros [Hs Hm Hh Hd Hw].
  unfold alarm1_regs, alarm2_regs.
  cbn [map alarm1_rate_val alarm2_rate_val Z.leb Z.eqb Z.compare Pos.compare
       Pos.compare_cont Pos.eqb].
  rewrite !u8_id by (unfold is_u8; lia).
  rewrite !bcd2dec_dec2bcd by lia. split; reflexivity.
Qed.

Lemma alarm_date_fields_witness :
  alarm_fields_ok leap_day /\
  map bcd2dec (alarm1_regs leap_day DS3231_ALARM1_MATCH_SECMINHOURDATE)
  = [58; 59; 23; 29].
Proof.
  split; [exact leap_day_alarm_fields |].
  exact (proj1 (alarm_date_fields leap_day leap_day_alarm_fields)).
Defined.



(** ** Reading flags *)

Lemma land_pow2 x n :
  0 <= n -> Z.land x (2 ^ n) = if Z.testbit x n then 2 ^ n else 0.
Proof.
  intros Hn. apply Z.bits_inj'. intros k Hk.
  rewrite Z.land_spec, Z.pow2_bits_eqb by lia.
  destruct (Z.eqb_spec n k) as [<- | Hne].
  - destruct (Z.testbit x n); cbn [andb].
    + rewrite Z.pow2_bits_true by lia. reflexivity.
    + rewrite Z.bits_0. reflexivity.
  - rewrite andb_false_r.
    destruct (Z.testbit x n); [| rewrite Z.bits_0; reflexivity].
    rewrite Z.pow2_bits_false by lia. reflexivity.
Qed.

Lemma land_byte x : is_u8 x -> Z.land x 0xff = x.
Proof.
  intros Hx. change 0xff with (Z.ones 8). rewrite Z.land_ones by lia.
  apply Z.mod_small. exact Hx.
Qed.

Lemma reg_get_byte rs a : is_u8 (reg_get rs a).
Proof. apply u8_range. Qed.

Lemma get_flag_ok a mask flag (c : chip) :
  script c = [] ->
  fst (ds3231_get_flag a mask flag c) = (true, Z.land (reg_get (regs c) a) mask).
Proof.
  intros Hs. unfold ds3231_get_flag, io_bind, io_ret.
  rewrite chip_read_ok by exact Hs. reflexivity.
Qed.

(** X12: on a working transport get-flag returns the register byte reduced to the
    mask: with the mask 0xff the whole byte, with any mask a value whose bits
    all lie in the mask.  The chip is left as it was. *)
Theorem get_flag_masks (a mask flag : Z) (c : chip) :
  script c = [] ->
  fst (ds3231_get_flag a mask flag c) = (true, Z.land (reg_get (regs c) a) mask) /\
  fst (ds3231_get_flag a 0xff flag c) = (true, reg_get (regs c) a) /\
  Z.land (snd (fst (ds3231_get_flag a mask flag c))) mask
  = snd (fst (ds3231_get_flag a mask flag c)) /\
  regs (snd (ds3231_get_flag a mask flag c)) = regs c.
Proof.
  intros Hs. unfold ds3231_get_flag, io_bind, io_ret.
  rewrite !chip_read_ok by exact Hs. cbn [fst snd load idx nth regs].
  rewrite land_byte by apply reg_get_byte.
  rewrite <- Z.land_assoc, Z.land_diag. repeat split.
Qed.

Lemma get_flag_masks_witness :
  script stopped_chip = [] /\
  fst (ds3231_get_flag DS3231_ADDR_STATUS DS3231_STAT_32KHZ 0 stopped_chip)
  = (true, Z.land (reg_get (regs stopped_chip) DS3231_ADDR_STATUS) DS3231_STAT_32KHZ).
Proof.
  split; [reflexivity |].
  exact (proj1 (get_flag_masks DS3231_ADDR_STATUS DS3231_STAT_32KHZ 0 stopped_chip eq_refl)).
Defined.

(** X13: on a working transport get-oscillator-stop-flag reports bit 7 of the
    status register. *)
Theorem get_oscillator_stop_flag_bit (flag : bool) (c : chip) :
  script c = [] ->
  fst (ds3231_get_oscillator_stop_flag flag c)
  = (true, Z.testbit (reg_get (regs c) DS3231_ADDR_STATUS) 7).
Proof.
  intros Hs. unfold ds3231_get_oscillator_stop_flag, io_bind, io_ret.
  destruct (ds3231_get_flag _ _ _ c) as [rf c1] eqn:E.
  pose proof (get_flag_ok DS3231_ADDR_STATUS DS3231_STAT_OSCILLATOR 0 c Hs) as Hf.
  rewrite E in Hf. cbn [fst] in Hf. subst rf. cbn [fst snd].
  change DS3231_STAT_OSCILLATOR with (2 ^ 7). rewrite land_pow2 by lia.
  destruct (Z.testbit _ 7); reflexivity.
Qed.

Lemma get_oscillator_stop_flag_bit_witness :
  script stopped_chip = [] /\
  fst (ds3231_get_oscillator_stop_flag false stopped_chip) = (true, true).
Proof.
  split; [reflexivity |].
  exact (get_oscillator_stop_flag_bit false stopped_chip eq_refl).
Defined.



(** ** What the flag operations depend on *)

(** X15: neither the bits nor the mode passed to [ds3231_set_flag] has any
    influence on its result or on the transport, whatever the transport is:
    enabling and disabling the 32 kHz output are the same operation, and so
    are enabling and disabling the square wave, and clearing the
    oscillator-stop flag and clearing any alarm flags. *)
Theorem set_flag_ignores_bits_and_mode
    (bus : Type) (transport : Transport bus) (dev : bus) :
  (forall a bits mode bits' mode',
     ds3231_set_flag a bits mode dev = ds3231_set_flag a bits' mode' dev) /\
  ds3231_enable_32khz dev = ds3231_disable_32khz dev /\
  ds3231_enable_squarewave dev = ds3231_disable_squarewave dev /\
  (forall alarms, ds3231_clear_alarm_flags alarms dev = ds3231_clear_oscillator_stop_flag dev) /\
  (forall alarms alarms',
     ds3231_enable_alarm_ints alarms dev = ds3231_disable_alarm_ints alarms' dev).
Proof.
  assert (H : forall a bits mode bits' mode',
            ds3231_set_flag a bits mode dev = ds3231_set_flag a bits' mode' dev).
  { intros a bits mode bits' mode'. unfold ds3231_set_flag, io_bind.
    destruct (hal_i2c_read_reg a 1 dev) as [[d |] dev1]; reflexivity. }
  split; [exact H |].
  unfold ds3231_enable_32khz, ds3231_disable_32khz, ds3231_enable_squarewave,
    ds3231_disable_squarewave, ds3231_clear_alarm_flags,
    ds3231_clear_oscillator_stop_flag, ds3231_enable_alarm_ints,
    ds3231_disable_alarm_ints.
  repeat split; intros; apply H.
Qed.

(** X16: the outcome of [ds3231_set_flag]: when the first read fails it returns
    false without a second transport call; otherwise it returns the outcome of
    a second read of the same register. *)
Theorem set_flag_outcome
    (bus : Type) (transport : Transport bus) (a bits mode : Z) (dev : bus) :
  (fst (hal_i2c_read_reg a 1 dev) = None ->
     ds3231_set_flag a bits mode dev = (false, snd (hal_i2c_read_reg a 1 dev))) /\
  (fst (hal_i2c_read_reg a 1 dev) <> None ->
     ds3231_set_flag a bits mode dev
     = (succeeded (fst (hal_i2c_read_reg a 1 (snd (hal_i2c_read_reg a 1 dev)))),
        snd (hal_i2c_read_reg a 1 (snd (hal_i2c_read_reg a 1 dev))))).
Proof.
  unfold ds3231_set_flag, io_bind, io_ret.
  destruct (hal_i2c_read_reg a 1 dev) as [[d |] dev1]; cbn [fst snd]; split;
    try congruence; intros _.
  destruct (hal_i2c_read_reg a 1 dev1) as [r dev2]. reflexivity.
Qed.

Lemma set_flag_outcome_witness :
  fst (hal_i2c_read_reg DS3231_ADDR_STATUS 1 (dead_chip 1)) = None /\
  ds3231_set_flag DS3231_ADDR_STATUS DS3231_STAT_32KHZ DS3231_SET (dead_chip 1)
  = (false, snd (hal_i2c_read_reg DS3231_ADDR_STATUS 1 (dead_chip 1))).
Proof.
  split; [reflexivity |].
  exact (proj1 (set_flag_outcome chip chip_transport DS3231_ADDR_STATUS
                  DS3231_STAT_32KHZ DS3231_SET (dead_chip 1)) eq_refl).
Defined.

(** X17: none of the flag operations changes a register of the chip, whatever the
    register contents and the outcomes of the transport calls. *)
Theorem flag_operations_change_nothing (alarms : ds3231_alarm_t) (c : chip) :
  regs (snd (ds3231_clear_oscillator_stop_flag c)) = regs c /\
  regs (snd (ds3231_clear_alarm_flags alarms c)) = regs c /\
  regs (snd (ds3231_enable_alarm_ints alarms c)) = regs c /\
  regs (snd (ds3231_disable_alarm_ints alarms c)) = regs c /\
  regs (snd (ds3231_enable_32khz c)) = regs c /\
  regs (snd (ds3231_disable_32khz c)) = regs c /\
  regs (snd (ds3231_enable_squarewave c)) = regs c /\
  regs (snd (ds3231_disable_squarewave c)) = regs c.
Proof. repeat split; apply set_flag_regs. Qed.

(** ** Temperature readings *)

(** X18: on a working transport the integer temperature is the signed high byte
    of the register pair, whatever the low byte, and the float temperature is
    that integer plus a quarter for each unit of the top two bits of the low
    byte: the integer is the float rounded down, also below zero. *)
Theorem temp_integer_floor (temp t_int : Z) (tempf : Q) (c : chip) :
  script c = [] ->
  fst (ds3231_get_temp_integer temp t_int c)
  = (true, i8 (reg_get (regs c) DS3231_ADDR_TEMP)) /\
  exists q : Q,
    fst (ds3231_get_temp_float tempf t_int c) = (true, q) /\
    (q == inject_Z (i8 (reg_get (regs c) DS3231_ADDR_TEMP))
          + inject_Z (reg_get (regs c) (DS3231_ADDR_TEMP + 1) / 64) * (1 # 4))%Q /\
    (inject_Z (i8 (reg_get (regs c) DS3231_ADDR_TEMP)) <= q)%Q /\
    (q < inject_Z (i8 (reg_get (regs c) DS3231_ADDR_TEMP)) + 1)%Q.
Proof.
  intros Hs.
  set (hi := reg_get (regs c) DS3231_ADDR_TEMP).
  set (lo := reg_get (regs c) (DS3231_ADDR_TEMP + 1)).
  assert (Hlo : is_u8 lo) by apply reg_get_byte.
  unfold ds3231_get_temp_integer, ds3231_get_temp_float, ds3231_get_raw_temp,
    io_bind, io_ret.
  rewrite chip_read_ok by exact Hs. cbn [fst snd load].
  fold hi lo.
  pose proof (raw_temp_value hi lo Hlo) as Hraw.
  pose proof (i8_range hi) as Hhi. unfold is_u8 in Hlo.
  split.
  - rewrite raw_temp_shiftr by exact Hlo. rewrite shiftr2, Hraw.
    f_equal. zlia.
  - eexists. split; [reflexivity |]. rewrite Hraw.
    assert (Hq : 0 <= lo / 64 <= 3) by zlia.
    unfold Qeq, Qle, Qlt, Qplus, Qmult, inject_Z. cbn [Qnum Qden].
    repeat split; lia.
Qed.

Lemma temp_integer_floor_witness :
  script (temp_chip 0xFF 0xC0) = [] /\
  fst (ds3231_get_temp_integer 0 0 (temp_chip 0xFF 0xC0))
  = (true, i8 (reg_get (regs (temp_chip 0xFF 0xC0)) DS3231_ADDR_TEMP)).
Proof.
  split; [reflexivity |].
  exact (proj1 (temp_integer_floor 0 0 0%Q (temp_chip 0xFF 0xC0) eq_refl)).
Defined.

(** X19: when the read of the temperature registers fails, all three temperature
    operations return false and leave the caller's variable as it was,
    whatever the transport is. *)
Theorem temp_read_failure
    (bus : Type) (transport : Transport bus)
    (temp t_int : Z) (tempf : Q) (dev : bus) :
  fst (hal_i2c_read_reg DS3231_ADDR_TEMP 2 dev) = None ->
  fst (ds3231_get_raw_temp temp dev) = (false, temp) /\
  fst (ds3231_get_temp_integer temp t_int dev) = (false, temp) /\
  fst (ds3231_get_temp_float tempf t_int dev) = (false, tempf).
Proof.
  unfold ds3231_get_temp_integer, ds3231_get_temp_float, ds3231_get_raw_temp,
    io_bind, io_ret.
  destruct (hal_i2c_read_reg DS3231_ADDR_TEMP 2 dev) as [r dev1]. cbn [fst].
  intros ->. repeat split.
Qed.

Lemma temp_read_failure_witness :
  fst (hal_i2c_read_reg DS3231_ADDR_TEMP 2 (dead_chip 1)) = None /\
  fst (ds3231_get_temp_integer 21 0 (dead_chip 1)) = (false, 21).
Proof.
  split; [reflexivity |].
  destruct (temp_read_failure chip chip_transport 21 0 0%Q (dead_chip 1) eq_refl)
    as (_ & H & _).
  exact H.
Defined.

(** ** The nRF5 transport *)

(** X20: whenever [hal_i2c_write_reg] of the nRF5 port returns, it returns false
    if the TWI transfer succeeded and true if it failed; the transfer is one
    frame, the register address followed by the data, to the address of the
    device descriptor. *)
Theorem nrf5_write_result_inverted
    (twi : Type) (sdk : Nrf5.Sdk twi)
    (dev : i2c_dev_t) (reg : Z) (out_data : list Z) (s s' : twi) (res : bool) :
  Nrf5.hal_i2c_write_reg dev reg out_data s = Some (res, s') ->
  res = negb (fst (Nrf5.nrf_drv_twi_tx (addr dev) (reg :: out_data) false s)
              =? Nrf5.NRF_SUCCESS).
Proof.
  unfold Nrf5.hal_i2c_write_reg.
  destruct (Nrf5.nrf_drv_twi_tx (addr dev) (reg :: out_data) false s) as [err s1].
  cbn [fst].
  destruct (Nrf5.APP_ERROR_CHECK err s1) as [s2 |]; [| discriminate].
  intros [= <- _]. destruct (err =? Nrf5.NRF_SUCCESS); reflexivity.
Qed.

Lemma nrf5_write_result_inverted_witness :
  Nrf5.hal_i2c_write_reg rtc_dev DS3231_ADDR_TIME (time_regs leap_day) good_twi
  = Some (false,
          {| Nrf5.codes := []; Nrf5.rx_bytes := [0x11; 0x22];
             Nrf5.frames := [(DS3231_ADDR, DS3231_ADDR_TIME :: time_regs leap_day)] |}) /\
  false = negb (fst (Nrf5.nrf_drv_twi_tx (addr rtc_dev)
                       (DS3231_ADDR_TIME :: time_regs leap_day) false good_twi)
                =? Nrf5.NRF_SUCCESS).
Proof.
  split; [reflexivity |].
  exact (nrf5_write_result_inverted Nrf5.sim_twi Nrf5.sim_sdk rtc_dev DS3231_ADDR_TIME
           (time_regs leap_day) good_twi _ false eq_refl).
Defined.



(** ** Square-wave frequency, in general *)

(** X22: set-squarewave-frequency returns true on every transport, and on the chip
    it changes no register, whatever the frequency, the register contents and
    the outcomes of the transport calls. *)
Theorem set_squarewave_freq_inert (freq : ds3231_sqwave_freq_t) :
  (forall (bus : Type) (transport : Transport bus) (dev : bus),
     fst (ds3231_set_squarewave_freq freq dev) = true) /\
  (forall c : chip, regs (snd (ds3231_set_squarewave_freq freq c)) = regs c).
Proof.
  split.
  - intros bus transport dev. apply set_squarewave_freq_always_true.
  - intros c. apply set_squarewave_freq_regs.
Qed.
